(** * w3_login: the OAuth2 relay of [src/w3_login/app.py]

    A shallow embedding of the Flask application: the request handlers are
    functions in a small state-and-exception monad over the browser session
    and the log of outbound provider calls.  Everything outside the
    repository that a handler talks to (the identity provider answering
    [requests.post], the random state drawn by the OAuth client library, the
    interpreter's table of printable characters) is gathered in an
    environment record [env]. *)

From Stdlib Require Import ZArith String Ascii List Bool Lia.
From stdpp Require Import base option gmap strings pretty.
Import ListNotations.

Local Open Scope Z_scope.
Local Open Scope string_scope.

(** ** Python values

    The values the handlers manipulate are the ones [resp.json()] produces
    and the session stores: [None], booleans, integers, floats, strings,
    lists and dictionaries with string keys.  A dictionary is an association
    list in insertion order (the order shows in [str(dict)]); lookup takes
    the first binding of a key. *)

(** A float is carried by what the handlers can observe of it: its truth
    value and its [repr]. *)
Record pyfloat := PyFloatTok { float_is_zero : bool; float_repr : string }.

#[local] Set Warnings "-register-all".

Inductive pyval :=
| PyNone
| PyBool (b : bool)
| PyInt (z : Z)
| PyFloat (f : pyfloat)
| PyStr (s : string)
| PyList (l : list pyval)
| PyDict (d : list (string * pyval)).

Inductive exn :=
| RequestException      (* requests.post could not get a response *)
| JSONDecodeError       (* resp.json() on a body that is not JSON *)
| TypeError
| KeyError
| AttributeError
| BuildError.           (* url_for on an unknown endpoint *)

Module Py.

(** [bool(v)], as used by [not v]. *)
Definition truthy (v : pyval) : bool :=
  match v with
  | PyNone => false
  | PyBool b => b
  | PyInt z => negb (z =? 0)%Z
  | PyFloat f => negb (float_is_zero f)
  | PyStr s => negb (String.eqb s "")
  | PyList l => match l with [] => false | _ => true end
  | PyDict d => match d with [] => false | _ => true end
  end.

Fixpoint dict_get (k : string) (d : list (string * pyval)) : option pyval :=
  match d with
  | [] => None
  | (k', v) :: d' => if String.eqb k k' then Some v else dict_get k d'
  end.

Definition dict_has (k : string) (d : list (string * pyval)) : bool :=
  match dict_get k d with Some _ => true | None => false end.

(** [p in s] for two strings: substring search. *)
Fixpoint substring_of (p s : string) : bool :=
  String.prefix p s ||
  match s with
  | EmptyString => false
  | String _ s' => substring_of p s'
  end.

Definition is_str (k : string) (v : pyval) : bool :=
  match v with PyStr s => String.eqb k s | _ => false end.

(** [k in v] for a string [k]: key membership on a dict, element
    membership on a list, substring on a string, [TypeError] on the
    values that are not containers. *)
Definition contains (k : string) (v : pyval) : exn + bool :=
  match v with
  | PyDict d => inr (dict_has k d)
  | PyList l => inr (existsb (is_str k) l)
  | PyStr s => inr (substring_of k s)
  | _ => inl TypeError
  end.

(** [v[k]] for a string [k]. *)
Definition getitem (v : pyval) (k : string) : exn + pyval :=
  match v with
  | PyDict d => match dict_get k d with Some x => inr x | None => inl KeyError end
  | _ => inl TypeError
  end.

(** [v.get(k)]. *)
Definition get (v : pyval) (k : string) : exn + pyval :=
  match v with
  | PyDict d => inr (default PyNone (dict_get k d))
  | _ => inl AttributeError
  end.

(** *** [repr] and [str] *)

Definition squote : ascii := "039"%char.
Definition dquote : ascii := "034"%char.
Definition backslash : ascii := "092"%char.

Fixpoint has_char (c : ascii) (s : string) : bool :=
  match s with
  | EmptyString => false
  | String a s' => Ascii.eqb a c || has_char c s'
  end.

Definition hex_digit (n : N) : ascii :=
  (if n <? 10 then ascii_of_N (48 + n) else ascii_of_N (87 + n))%N.

(** The last [width] hexadecimal digits of [n], in lower case. *)
Fixpoint hex_of (width : nat) (n : N) : string :=
  match width with
  | O => ""
  | S w => hex_of w (n / 16) +:+ String (hex_digit (n mod 16)) ""
  end.

(** The escape [repr] writes for a character that is not printable: two,
    four or eight hexadecimal digits by the size of the code point. *)
Definition escape_code (cp : N) : string :=
  if (cp <? 256)%N then String backslash (String "x" (hex_of 2 cp))
  else if (cp <? 65536)%N then String backslash (String "u" (hex_of 4 cp))
  else String backslash (String "U" (hex_of 8 cp)).

(** One ASCII character of a string inside [repr], quoted with [q]. *)
Definition repr_char (q c : ascii) : string :=
  let n := N_of_ascii c in
  if Ascii.eqb c q || Ascii.eqb c backslash then String backslash (String c "")
  else if (n =? 9)%N then String backslash "t"
  else if (n =? 10)%N then String backslash "n"
  else if (n =? 13)%N then String backslash "r"
  else if ((n <? 32) || (n =? 127))%N then escape_code n
  else String c "".

(** A continuation byte of UTF-8. *)
Definition is_cont (c : ascii) : bool :=
  let n := N_of_ascii c in ((128 <=? n) && (n <? 192))%N.

Definition cont_bits (c : ascii) : N := (N_of_ascii c - 128)%N.

(** A character outside ASCII, given by its code point [cp] and its UTF-8
    bytes [raw]: kept when the interpreter's Unicode database has it
    printable, escaped when not. *)
Definition repr_wide (printable : N -> bool) (cp : N) (raw : string) : string :=
  if printable cp then raw else escape_code cp.

(** The characters of a string inside [repr].  A string is the sequence of
    the UTF-8 bytes of its characters: an ASCII character is one byte, a
    character outside ASCII is decoded from its two, three or four bytes.
    A byte that starts no character, which the UTF-8 of a string never has,
    is kept. *)
Fixpoint repr_chars (printable : N -> bool) (q : ascii) (s : string) : string :=
  match s with
  | EmptyString => ""
  | String c s1 =>
      let n := N_of_ascii c in
      if (n <? 128)%N then repr_char q c +:+ repr_chars printable q s1
      else if ((192 <=? n) && (n <? 224))%N then
        match s1 with
        | String c1 s2 =>
            if is_cont c1
            then repr_wide printable ((n - 192) * 64 + cont_bits c1)
                   (String c (String c1 ""))
                 +:+ repr_chars printable q s2
            else String c (repr_chars printable q s1)
        | _ => String c (repr_chars printable q s1)
        end
      else if ((224 <=? n) && (n <? 240))%N then
        match s1 with
        | String c1 (String c2 s3) =>
            if is_cont c1 && is_cont c2
            then repr_wide printable
                   ((n - 224) * 4096 + cont_bits c1 * 64 + cont_bits c2)
                   (String c (String c1 (String c2 "")))
                 +:+ repr_chars printable q s3
            else String c (repr_chars printable q s1)
        | _ => String c (repr_chars printable q s1)
        end
      else if ((240 <=? n) && (n <? 248))%N then
        match s1 with
        | String c1 (String c2 (String c3 s4)) =>
            if is_cont c1 && is_cont c2 && is_cont c3
            then repr_wide printable
                   ((n - 240) * 262144 + cont_bits c1 * 4096 + cont_bits c2 * 64 + cont_bits c3)
                   (String c (String c1 (String c2 (String c3 ""))))
                 +:+ repr_chars printable q s4
            else String c (repr_chars printable q s1)
        | _ => String c (repr_chars printable q s1)
        end
      else String c (repr_chars printable q s1)
  end.

(** [repr(s)]: single quotes, unless the string has a single quote and no
    double quote. *)
Definition repr_str (printable : N -> bool) (s : string) : string :=
  let q := if has_char squote s && negb (has_char dquote s) then dquote else squote in
  String q (repr_chars printable q s +:+ String q "").

Fixpoint join (sep : string) (l : list string) : string :=
  match l with
  | [] => ""
  | [x] => x
  | x :: l' => x +:+ sep +:+ join sep l'
  end.

Fixpoint repr (printable : N -> bool) (v : pyval) : string :=
  match v with
  | PyNone => "None"
  | PyBool true => "True"
  | PyBool false => "False"
  | PyInt z => pretty z
  | PyFloat f => float_repr f
  | PyStr s => repr_str printable s
  | PyList l => "[" +:+ join ", " (map (repr printable) l) +:+ "]"
  | PyDict d =>
      "{" +:+ join ", "
                (map (fun kv => repr_str printable (fst kv) +:+ ": " +:+ repr printable (snd kv)) d)
          +:+ "}"
  end.

(** [str(v)], the conversion of an f-string field [{v}]: a string is
    inserted as it is, every other value through its [repr].  [printable]
    is the interpreter's table of printable characters outside ASCII. *)
Definition str (printable : N -> bool) (v : pyval) : string :=
  match v with
  | PyStr s => s
  | _ => repr printable v
  end.

End Py.

(** ** Configuration (module level of [app.py]) *)

Definition CLIENT_ID : string := "airview_login".
Definition CLIENT_SECRET : string := "airview_admin".

Definition USERINFO_URL : string := "https://uniportal.huawei.com/saaslogin1/oauth2/userinfo".
Definition ACCESS_TOKEN_URL : string := "https://uniportal.huawei.com/saaslogin1/oauth2/accesstoken".
Definition REFRESH_TOKEN_URL : string := "https://uniportal.huawei.com/saaslogin1/oauth2/refreshtoken".
Definition AUTHORIZE_URL : string := "https://uniportal.huawei.com/saaslogin1/oauth2/authorize".
Definition SCOPE : string := "base.profile".
Definition REDIRECT_URI : string := "https://airview.rnd.huawei.com/authorize".
Definition LOGOUT_URL : string := "https://uniportal.huawei.com/saaslogin1/oauth2/logout".

(** What [oauth.register] is given. *)
Record oauth_client := {
  name : string;
  client_id : string;
  client_secret : string;
  access_token_url : string;
  authorize_url : string;
  client_kwargs : list (string * string);
  redirect_uri : string
}.

Definition w3 : oauth_client := {|
  name := "w3";
  client_id := CLIENT_ID;
  client_secret := CLIENT_SECRET;
  access_token_url := ACCESS_TOKEN_URL;
  authorize_url := AUTHORIZE_URL;
  client_kwargs := [("scope", SCOPE)];
  redirect_uri := REDIRECT_URI
|}.

(** The [@app.route] table: endpoint (function name) and rule. *)
Definition routes : list (string * string) :=
  [ ("index", "/"); ("login", "/login"); ("logout", "/logout");
    ("authorize", "/authorize"); ("welcome", "/welcome"); ("profile", "/profile");
    ("refresh_token", "/refresh"); ("index_html", "/index.html") ].

(** ** Requests, responses, provider calls *)

(** The incoming request: its query arguments in order (a key may repeat,
    [request.args.get] takes the first) and the root the application is
    served from, without the final slash. *)
Record request := { args : list (string * string); url_root : string }.

(** What a view function returns.  A URL is kept as its base and its query
    parameters before URL-encoding. *)
Inductive response :=
| Redirect (location : string) (query : list (string * string))  (* redirect(...) *)
| Text (body : string) (status : Z)                              (* return body, status *)
| Template (template : string) (context : list (string * pyval)). (* render_template(...) *)

Definition status_of (r : response) : Z :=
  match r with
  | Redirect _ _ => 302
  | Text _ st => st
  | Template _ _ => 200
  end.

(** [requests.post(url, headers=headers, data=json.dumps(data))]: the call
    is recorded with the object handed to [json.dumps]. *)
Record outbound := { url : string; headers : list (string * string); data : pyval }.

(** The provider's answer: [resp.status_code], [resp.text] and the outcome
    of [resp.json()], [None] when the body does not parse. *)
Record http_response := { status_code : Z; text : string; json : option pyval }.

(** The world outside the repository. *)
Record env := {
  (** the answer [requests.post] gets to a call, or the exception it raises *)
  provider : outbound -> exn + http_response;
  (** the OAuth client library's random token of a given length *)
  generate_token : nat -> string;
  (** the library's S256 code challenge of a verifier *)
  code_challenge : string -> string;
  (** the library's record of an authorization request in the session,
      from the state and the redirect URI *)
  save_authorize_data : string -> string -> gmap string pyval -> gmap string pyval;
  (** the interpreter's Unicode database: whether the character of a code
      point outside ASCII is printable, which [repr] consults *)
  unicode_printable : N -> bool
}.

(** ** The handler monad: session, log of provider calls, exceptions *)

Record world := { session : gmap string pyval; sent : list outbound }.

Definition M (A : Type) : Type := world -> (exn + A) * world.

Definition ret {A} (x : A) : M A := fun w => (inr x, w).

Definition raise {A} (e : exn) : M A := fun w => (inl e, w).

Definition bind {A B} (c : M A) (k : A -> M B) : M B :=
  fun w =>
    match c w with
    | (inr x, w') => k x w'
    | (inl e, w') => (inl e, w')
    end.

Definition lift {A} (x : exn + A) : M A := fun w => (x, w).

Declare Scope handler_scope.
Delimit Scope handler_scope with handler.
Notation "x <- c ;; k" := (bind c (fun x => k))
  (at level 100, c at next level, right associativity) : handler_scope.
Notation "c ;; k" := (bind c (fun _ => k))
  (at level 100, right associativity) : handler_scope.
Local Open Scope handler_scope.

(** [session.get(k)] *)
Definition session_get (k : string) : M pyval :=
  fun w => (inr (default PyNone (session w !! k)), w).

(** [session[k] = v] *)
Definition session_set (k : string) (v : pyval) : M unit :=
  fun w => (inr tt, {| session := <[k := v]> (session w); sent := sent w |}).

(** [session.clear()] *)
Definition session_clear : M unit :=
  fun w => (inr tt, {| session := ∅; sent := sent w |}).

Definition requests_post (e : env) (u : string) (h : list (string * string)) (d : pyval)
  : M http_response :=
  fun w =>
    let call := {| url := u; headers := h; data := d |} in
    (provider e call, {| session := session w; sent := sent w ++ [call] |}).

(** [resp.json()] *)
Definition resp_json (r : http_response) : M pyval :=
  match json r with
  | Some v => ret v
  | None => raise JSONDecodeError
  end.

(** [request.args.get(k)] *)
Fixpoint args_get (k : string) (l : list (string * string)) : pyval :=
  match l with
  | [] => PyNone
  | (k', v) :: l' => if String.eqb k k' then PyStr v else args_get k l'
  end.

Fixpoint rule_of (endpoint : string) (t : list (string * string)) : option string :=
  match t with
  | [] => None
  | (ep, rule) :: t' => if String.eqb endpoint ep then Some rule else rule_of endpoint t'
  end.

(** [url_for(endpoint)] and [url_for(endpoint, _external=True)] *)
Definition url_for (endpoint : string) : M string :=
  match rule_of endpoint routes with
  | Some rule => ret rule
  | None => raise BuildError
  end.

Definition url_for_external (req : request) (endpoint : string) : M string :=
  rule <- url_for endpoint ;;
  ret (url_root req +:+ rule).

(** ** The OAuth client library

    [oauth.w3.authorize_redirect(redirect_uri)] is a call into the authlib
    library, whose code is not part of the repository.  The client is
    registered without [request_token_url], so it is authlib's OAuth2 Flask
    client, and the definitions below follow that library:
    [authorize_redirect] calls [create_authorization_url], which draws a
    [state] with [generate_token] when the caller gives none and builds the
    URL with [prepare_grant_uri] from the registered [authorize_url] and the
    parameters [response_type], [client_id], [redirect_uri], [scope] and
    [state]; a [nonce] is added when the scope has the word [openid], a code
    challenge when the client was registered with the
    [code_challenge_method] S256.  It then records the request in the
    session under a key of its own ([save_authorize_data]) and returns the
    redirect. *)

Definition is_space (c : ascii) : bool :=
  let n := N_of_ascii c in
  ((n =? 32) || ((9 <=? n) && (n <=? 13)) || ((28 <=? n) && (n <=? 31)))%N.

(** [s.split()] *)
Fixpoint split_go (cur : string) (s : string) : list string :=
  match s with
  | EmptyString => if String.eqb cur "" then [] else [cur]
  | String c s' =>
      if is_space c
      then (if String.eqb cur "" then split_go "" s' else cur :: split_go "" s')
      else split_go (cur +:+ String c "") s'
  end.

Definition split (s : string) : list string := split_go "" s.

Fixpoint kwarg (k : string) (l : list (string * string)) : option string :=
  match l with
  | [] => None
  | (k', v) :: l' => if String.eqb k k' then Some v else kwarg k l'
  end.

(** The query parameters of the authorization URL, in the order
    [prepare_grant_uri] appends them; a parameter with an empty value is
    left out. *)
Definition authorization_query (e : env) (c : oauth_client) (redirect : string)
  : list (string * string) :=
  let scope := default "" (kwarg "scope" (client_kwargs c)) in
  let nonce :=
    if existsb (String.eqb "openid") (split scope)
    then [("nonce", generate_token e 20)] else [] in
  let pkce :=
    match kwarg "code_challenge_method" (client_kwargs c) with
    | Some m =>
        if String.eqb m "S256"
        then [("code_challenge", code_challenge e (generate_token e 48));
              ("code_challenge_method", m)]
        else []
    | None => []
    end in
  [("response_type", "code"); ("client_id", client_id c)]
  ++ (if String.eqb redirect "" then [] else [("redirect_uri", redirect)])
  ++ (if String.eqb scope "" then [] else [("scope", scope)])
  ++ [("state", generate_token e 30)]
  ++ nonce ++ pkce.

Definition authorize_redirect (e : env) (c : oauth_client) (redirect : string) : M response :=
  fun w =>
    (inr (Redirect (authorize_url c) (authorization_query e c redirect)),
     {| session := save_authorize_data e (generate_token e 30) redirect (session w);
        sent := sent w |}).

(** ** The view functions *)

Definition json_headers : list (string * string) := [("Content-Type", "application/json")].

Definition index : M response := ret (Template "login.html" []).

Definition login : M response := ret (Template "login.html" []).

Definition logout (req : request) : M response :=
  session_clear ;;
  back <- url_for_external req "login" ;;
  ret (Redirect LOGOUT_URL [("clientId", CLIENT_ID); ("redirect", back)]).

Definition authorize (e : env) (req : request) : M response :=
  let code := args_get "code" (args req) in
  if negb (Py.truthy code) then
    authorize_redirect e w3 REDIRECT_URI
  else
    let data := PyDict [ ("client_id", PyStr CLIENT_ID);
                         ("client_secret", PyStr CLIENT_SECRET);
                         ("redirect_uri", PyStr REDIRECT_URI);
                         ("grant_type", PyStr "authorization_code");
                         ("code", code) ] in
    resp <- requests_post e ACCESS_TOKEN_URL json_headers data ;;
    if negb (status_code resp =? 200)%Z then
      ret (Text ("获取令牌失败: " +:+ text resp) 400)
    else
      token <- resp_json resp ;;
      has <- lift (Py.contains "access_token" token) ;;
      if negb has then
        ret (Text ("获取令牌失败: " +:+ Py.str (unicode_printable e) token) 400)
      else
        access <- lift (Py.getitem token "access_token") ;;
        session_set "access_token" access ;;
        refresh <- lift (Py.get token "refresh_token") ;;
        session_set "refresh_token" refresh ;;
        target <- url_for "welcome" ;;
        ret (Redirect target []).

Definition welcome : M response := ret (Template "index.html" []).

Definition profile (e : env) : M response :=
  access_token <- session_get "access_token" ;;
  if negb (Py.truthy access_token) then
    target <- url_for "index" ;;
    ret (Redirect target [])
  else
    let payload := PyDict [ ("client_id", PyStr CLIENT_ID);
                            ("access_token", access_token);
                            ("scope", PyStr SCOPE) ] in
    resp <- requests_post e USERINFO_URL json_headers payload ;;
    if negb (status_code resp =? 200)%Z then
      ret (Text ("获取用户信息失败: " +:+ text resp) 400)
    else
      userinfo <- resp_json resp ;;
      ret (Template "profile.html" [("userinfo", userinfo)]).

Definition refresh_token (e : env) : M response :=
  refresh_token <- session_get "refresh_token" ;;
  outcome <-
    (if negb (Py.truthy refresh_token) then
       ret ("没有 refresh_token", false)
     else
       let payload := PyDict [ ("client_id", PyStr CLIENT_ID);
                               ("grant_type", PyStr "refresh_token");
                               ("refresh_token", refresh_token) ] in
       resp <- requests_post e REFRESH_TOKEN_URL json_headers payload ;;
       data <- resp_json resp ;;
       has <- lift (Py.contains "access_token" data) ;;
       if has then
         access <- lift (Py.getitem data "access_token") ;;
         session_set "access_token" access ;;
         refresh <- lift (Py.get data "refresh_token") ;;
         session_set "refresh_token" refresh ;;
         shown <- lift (Py.getitem data "access_token") ;;
         ret ("刷新成功! 新 access_token: " +:+ Py.str (unicode_printable e) shown, true)
       else
         ret ("刷新失败: " +:+ Py.str (unicode_printable e) data, false)) ;;
  ret (Template "refresh_result.html"
         [("message", PyStr (fst outcome)); ("success", PyBool (snd outcome))]).

Definition index_html : M response := ret (Template "index.html" []).

(** One request: the handler runs on the browser's session with an empty
    log of provider calls. *)
Definition handle {A} (h : M A) (s : gmap string pyval) : (exn + A) * world :=
  h {| session := s; sent := [] |}.

(** The calls of a log to one endpoint. *)
Definition calls_to (u : string) (l : list outbound) : list outbound :=
  filter (fun c => url c = u) l.

(** The session holds a token under [k], by the handlers' own test
    [not session.get(k)]: the key is there and its value is not falsy. *)
Definition holds (k : string) (s : gmap string pyval) : bool :=
  Py.truthy (default PyNone (s !! k)).

(** The three provider calls, as the handlers build them. *)
Definition token_call (code : string) : outbound :=
  {| url := ACCESS_TOKEN_URL;
     headers := json_headers;
     data := PyDict [ ("client_id", PyStr CLIENT_ID);
                      ("client_secret", PyStr CLIENT_SECRET);
                      ("redirect_uri", PyStr REDIRECT_URI);
                      ("grant_type", PyStr "authorization_code");
                      ("code", PyStr code) ] |}.

Definition userinfo_call (s : gmap string pyval) : outbound :=
  {| url := USERINFO_URL;
     headers := json_headers;
     data := PyDict [ ("client_id", PyStr CLIENT_ID);
                      ("access_token", default PyNone (s !! "access_token"));
                      ("scope", PyStr SCOPE) ] |}.

Definition refresh_call (s : gmap string pyval) : outbound :=
  {| url := REFRESH_TOKEN_URL;
     headers := json_headers;
     data := PyDict [ ("client_id", PyStr CLIENT_ID);
                      ("grant_type", PyStr "refresh_token");
                      ("refresh_token", default PyNone (s !! "refresh_token")) ] |}.

(** The session after a successful exchange or refresh with the JSON
    object [d]. *)
Definition store_tokens (d : list (string * pyval)) (v : pyval) (s : gmap string pyval)
  : gmap string pyval :=
  <["refresh_token" := default PyNone (Py.dict_get "refresh_token" d)]> (<["access_token" := v]> s).

(** Whether a redirect carries the query parameter [k]. *)
Definition carries (k : string) (r : response) : bool :=
  match r with
  | Redirect _ q => existsb (String.eqb k) (map fst q)
  | _ => false
  end.

(** The page [refresh_token] renders. *)
Definition refresh_result (msg : string) (success : bool) : response :=
  Template "refresh_result.html" [("message", PyStr msg); ("success", PyBool success)].

(** What [refresh_token] does with the parsed body of the provider's
    answer. *)
Definition refresh_outcome (e : env) (data : pyval) : M response :=
  outcome <-
    (has <- lift (Py.contains "access_token" data) ;;
     if has then
       access <- lift (Py.getitem data "access_token") ;;
       session_set "access_token" access ;;
       refresh <- lift (Py.get data "refresh_token") ;;
       session_set "refresh_token" refresh ;;
       shown <- lift (Py.getitem data "access_token") ;;
       ret ("刷新成功! 新 access_token: " +:+ Py.str (unicode_printable e) shown, true)
     else
       ret ("刷新失败: " +:+ Py.str (unicode_printable e) data, false)) ;;
  ret (refresh_result (fst outcome) (snd outcome)).

(** ** Sample environments and requests *)

(** An excerpt of the interpreter's table: the characters outside ASCII that
    are not printable among Latin-1, the general punctuation, the
    ideographic space, the surrogates and private use area, the byte order
    mark and the tags. *)
Definition sample_printable (cp : N) : bool :=
  negb (((128 <=? cp) && (cp <=? 160)) || (cp =? 173)
        || ((8192 <=? cp) && (cp <=? 8207)) || ((8232 <=? cp) && (cp <=? 8239))
        || ((8287 <=? cp) && (cp <=? 8303)) || (cp =? 12288)
        || ((55296 <=? cp) && (cp <=? 63743)) || (cp =? 65279)
        || ((917504 <=? cp) && (cp <=? 917631)))%N.

Fixpoint token_of (n : nat) : string :=
  match n with
  | O => ""
  | S n' => String "k" (token_of n')
  end.

(** An environment whose provider answers every call with [r]. *)
Definition answering (r : http_response) : env :=
  {| provider := fun _ => inr r;
     generate_token := token_of;
     code_challenge := fun verifier => verifier;
     save_authorize_data := fun state redirect s =>
       <["_state_w3_" +:+ state := PyDict [("redirect_uri", PyStr redirect)]]> s;
     unicode_printable := sample_printable |}.

(** A JSON string literal: the text between double quotes. *)
Definition quoted (s : string) : string := String Py.dquote (s +:+ String Py.dquote "").

(** 200 with both tokens. *)
Definition token_ok : http_response :=
  {| status_code := 200;
     text := "{" +:+ quoted "access_token" +:+ ": " +:+ quoted "AT-1" +:+ ", "
                 +:+ quoted "refresh_token" +:+ ": " +:+ quoted "RT-1" +:+ "}";
     json := Some (PyDict [("access_token", PyStr "AT-1"); ("refresh_token", PyStr "RT-1")]) |}.

(** An error answer with the given status. *)
Definition invalid_grant (st : Z) : http_response :=
  {| status_code := st;
     text := "{" +:+ quoted "error" +:+ ": " +:+ quoted "invalid_grant" +:+ "}";
     json := Some (PyDict [("error", PyStr "invalid_grant")]) |}.

(** A new access token and no refresh token, under the given status. *)
Definition access_only (st : Z) : http_response :=
  {| status_code := st;
     text := "{" +:+ quoted "access_token" +:+ ": " +:+ quoted "AT-2" +:+ "}";
     json := Some (PyDict [("access_token", PyStr "AT-2")]) |}.

Definition callback_request : request :=
  {| args := [("code", "abc")]; url_root := "https://airview.rnd.huawei.com" |}.

Definition plain_request : request :=
  {| args := []; url_root := "https://airview.rnd.huawei.com" |}.

Definition logged_in : gmap string pyval :=
  <["refresh_token" := PyStr "RT-0"]> (<["access_token" := PyStr "AT-0"]> ∅).


(** An environment whose provider cannot be reached: [requests.post]
    raises. *)
Definition unreachable : env :=
  {| provider := fun _ => inl RequestException;
     generate_token := token_of;
     code_challenge := fun verifier => verifier;
     save_authorize_data := fun state redirect s =>
       <["_state_w3_" +:+ state := PyDict [("redirect_uri", PyStr redirect)]]> s;
     unicode_printable := sample_printable |}.

(** A gateway's HTML page in place of JSON. *)
Definition html_page (st : Z) : http_response :=
  {| status_code := st; text := "<html>Bad Gateway</html>"; json := None |}.

Definition userinfo_ok : http_response :=
  {| status_code := 200;
     text := "{" +:+ quoted "uid" +:+ ": " +:+ quoted "u123" +:+ "}";
     json := Some (PyDict [("uid", PyStr "u123")]) |}.

(** 200 with an access_token that is [null]. *)
Definition null_token : http_response :=
  {| status_code := 200;
     text := "{" +:+ quoted "access_token" +:+ ": null}";
     json := Some (PyDict [("access_token", PyNone)]) |}.

(** 200 with a JSON array in place of an object. *)
Definition token_array : http_response :=
  {| status_code := 200;
     text := "[" +:+ quoted "access_token" +:+ "]";
     json := Some (PyList [PyStr "access_token"]) |}.

(** 200 with a JSON number. *)
Definition number_body : http_response :=
  {| status_code := 200; text := "42"; json := Some (PyInt 42) |}.

Definition empty_code_request : request :=
  {| args := [("code", ""); ("code", "abc")]; url_root := "https://airview.rnd.huawei.com" |}.

(** The UTF-8 bytes of U+3000 (ideographic space), U+00A0 (no-break space),
    U+00E9 (e with acute accent) and U+E0001 (a language tag). *)
Definition u3000 : string := String "227" (String "128" (String "128" "")).
Definition u00a0 : string := String "194" (String "160" "").
Definition u00e9 : string := String "195" (String "169" "").
Definition ue0001 : string := String "243" (String "160" (String "128" (String "129" ""))).

(** An error object whose description has characters that are not
    printable. *)
Definition spaced_error (st : Z) : http_response :=
  {| status_code := st;
     text := "{" +:+ quoted "error" +:+ ": " +:+ quoted ("bad" +:+ u3000 +:+ "grant" +:+ u00a0) +:+ "}";
     json := Some (PyDict [("error", PyStr ("bad" +:+ u3000 +:+ "grant" +:+ u00a0))]) |}.

(** A session with the two tokens and a key of another owner. *)
Definition with_flash : gmap string pyval :=
  <["_flashes" := PyList [PyStr "hello"]]> logged_in.

(** * Properties *)

Example repr_dict :
  Py.str sample_printable
    (PyDict [("error", PyStr "invalid_grant"); ("code", PyInt 401); ("ok", PyBool false)])
  = "{'error': 'invalid_grant', 'code': 401, 'ok': False}".
Proof. vm_compute. reflexivity. Qed.

(** [repr] escapes the characters outside ASCII that are not printable and
    keeps the others. *)
Example repr_escapes :
  Py.str sample_printable
    (PyList [PyStr ("a" +:+ u3000 +:+ "b"); PyStr u00a0; PyStr u00e9; PyStr ue0001; PyStr "中"])
  = "['a\u3000b', '\xa0', '" +:+ u00e9 +:+ "', '\U000e0001', '中']".
Proof. vm_compute. reflexivity. Qed.

Lemma truthy_code c : c <> "" -> Py.truthy (PyStr c) = true.
Proof.
  intros Hc. simpl. destruct (String.eqb_spec c ""); [contradiction | reflexivity].
Qed.

Lemma status_test_200 (r : http_response) :
  status_code r = 200 -> negb (status_code r =? 200)%Z = false.
Proof. intros ->. reflexivity. Qed.

Lemma status_test_other (r : http_response) :
  status_code r <> 200 -> negb (status_code r =? 200)%Z = true.
Proof. intros H. destruct (Z.eqb_spec (status_code r) 200); [contradiction | reflexivity]. Qed.

(** The exchange path of [authorize], up to the provider's answer. *)
Lemma authorize_posts e req s c :
  args_get "code" (args req) = PyStr c -> c <> "" ->
  handle (authorize e req) s =
  match provider e (token_call c) with
  | inl x => (inl x, {| session := s; sent := [token_call c] |})
  | inr resp =>
      (if negb (status_code resp =? 200)%Z then
         ret (Text ("获取令牌失败: " +:+ text resp) 400)
       else
         token <- resp_json resp ;;
         has <- lift (Py.contains "access_token" token) ;;
         if negb has then
           ret (Text ("获取令牌失败: " +:+ Py.str (unicode_printable e) token) 400)
         else
           access <- lift (Py.getitem token "access_token") ;;
           session_set "access_token" access ;;
           refresh <- lift (Py.get token "refresh_token") ;;
           session_set "refresh_token" refresh ;;
           target <- url_for "welcome" ;;
           ret (Redirect target []))
        {| session := s; sent := [token_call c] |}
  end.
Proof.
  intros Hcode Hc. unfold handle, authorize.
  rewrite Hcode, (truthy_code c Hc). cbn [negb].
  unfold bind at 1, requests_post, token_call. cbn [session sent app].
  destruct (provider e _); reflexivity.
Qed.

(** C1: a request to /authorize with a non-empty [code] makes exactly one
    provider call, a POST to the token endpoint whose JSON body has the
    fields client_id, client_secret, redirect_uri, code and
    grant_type=authorization_code; and when the provider answers 200 with a
    JSON object that has the key access_token, the session's access_token
    and refresh_token are set from that object and the response is a
    redirect to /welcome. *)
Theorem authorize_code_exchange e req s c :
  args_get "code" (args req) = PyStr c -> c <> "" ->
  sent (snd (handle (authorize e req) s)) = [token_call c] /\
  (forall r d v,
      provider e (token_call c) = inr r ->
      status_code r = 200 ->
      json r = Some (PyDict d) ->
      Py.dict_get "access_token" d = Some v ->
      handle (authorize e req) s =
      (inr (Redirect "/welcome" []),
       {| session := store_tokens d v s; sent := [token_call c] |})).
Proof.
  intros Hcode Hc. rewrite (authorize_posts e req s c Hcode Hc). split.
  - destruct (provider e (token_call c)) as [x | r]; [reflexivity |].
    destruct (negb (status_code r =? 200)%Z); [reflexivity |].
    unfold bind, resp_json. destruct (json r) as [token |]; [| reflexivity].
    unfold lift, ret, raise.
    destruct (Py.contains "access_token" token) as [x | [|]]; cbn [negb]; try reflexivity.
    destruct (Py.getitem token "access_token") as [x | a]; [reflexivity |].
    unfold session_set.
    destruct (Py.get token "refresh_token") as [x | b]; reflexivity.
  - intros r d v Hr Hst Hj Hd. rewrite Hr, (status_test_200 r Hst).
    unfold bind, resp_json. rewrite Hj. unfold lift, ret. cbn [Py.contains].
    unfold Py.dict_has. rewrite Hd. cbn [negb Py.getitem]. rewrite Hd.
    reflexivity.
Qed.

(** C2, as amended: on a request to /authorize with a non-empty [code],
    when the token endpoint answers with a status other than 200 the
    response is the plain text of the failure prefix followed by the raw
    upstream body, with status 400; when it answers 200 with a JSON object
    that lacks the key access_token the response is the plain text of the
    prefix followed by the parsed object as Python prints it, with status
    400; in both cases the session is what it was: neither token is
    written. *)
Theorem authorize_exchange_failure e req s c r :
  args_get "code" (args req) = PyStr c -> c <> "" ->
  provider e (token_call c) = inr r ->
  (status_code r <> 200 ->
   handle (authorize e req) s =
   (inr (Text ("获取令牌失败: " +:+ text r) 400),
    {| session := s; sent := [token_call c] |})) /\
  (forall d,
      status_code r = 200 ->
      json r = Some (PyDict d) ->
      Py.dict_get "access_token" d = None ->
      handle (authorize e req) s =
      (inr (Text ("获取令牌失败: " +:+ Py.str (unicode_printable e) (PyDict d)) 400),
       {| session := s; sent := [token_call c] |})).
Proof.
  intros Hcode Hc Hr. rewrite (authorize_posts e req s c Hcode Hc), Hr. split.
  - intros Hst. rewrite (status_test_other r Hst). reflexivity.
  - intros d Hst Hj Hd. rewrite (status_test_200 r Hst).
    unfold bind, resp_json. rewrite Hj. unfold lift, ret. cbn [Py.contains].
    unfold Py.dict_has. rewrite Hd. reflexivity.
Qed.

(** The query of the redirect [authorize_redirect] builds for the
    registered client [w3]. *)
Lemma w3_authorization_query e :
  authorization_query e w3 REDIRECT_URI =
  [ ("response_type", "code"); ("client_id", CLIENT_ID);
    ("redirect_uri", REDIRECT_URI); ("scope", SCOPE);
    ("state", generate_token e 30) ].
Proof. reflexivity. Qed.

Lemma authorize_redirects e req s :
  Py.truthy (args_get "code" (args req)) = false ->
  handle (authorize e req) s =
  (inr (Redirect AUTHORIZE_URL (authorization_query e w3 REDIRECT_URI)),
   {| session := save_authorize_data e (generate_token e 30) REDIRECT_URI s; sent := [] |}).
Proof.
  intros Hcode. unfold handle, authorize. rewrite Hcode. reflexivity.
Qed.

(** C3: a request to /authorize without a [code] parameter is answered by a
    redirect to the provider's authorize URL whose query parameters include
    the configured client_id and redirect_uri, and no call is made to the
    token endpoint (nor to any other). *)
Theorem authorize_without_code e req s :
  args_get "code" (args req) = PyNone ->
  exists q w,
    handle (authorize e req) s = (inr (Redirect AUTHORIZE_URL q), w) /\
    In ("client_id", CLIENT_ID) q /\
    In ("redirect_uri", REDIRECT_URI) q /\
    sent w = [] /\
    calls_to ACCESS_TOKEN_URL (sent w) = [].
Proof.
  intros Hcode. eexists. eexists. split.
  - apply authorize_redirects. rewrite Hcode. reflexivity.
  - rewrite w3_authorization_query. cbn [sent In].
    repeat split; auto.
Qed.

(** C4, as amended: a request to /authorize without a [code] parameter is
    answered by a redirect whose query parameters are exactly
    response_type, client_id, redirect_uri, scope and state, in that order;
    the state is the one the OAuth client library draws, the handler passes
    none itself; the redirect carries no nonce and no PKCE parameter
    (code_challenge, code_challenge_method). *)
Theorem authorize_redirect_parameters e req s :
  args_get "code" (args req) = PyNone ->
  exists q w,
    handle (authorize e req) s = (inr (Redirect AUTHORIZE_URL q), w) /\
    map fst q = ["response_type"; "client_id"; "redirect_uri"; "scope"; "state"] /\
    In ("state", generate_token e 30) q /\
    carries "state" (Redirect AUTHORIZE_URL q) = true /\
    carries "nonce" (Redirect AUTHORIZE_URL q) = false /\
    carries "code_challenge" (Redirect AUTHORIZE_URL q) = false /\
    carries "code_challenge_method" (Redirect AUTHORIZE_URL q) = false.
Proof.
  intros Hcode. eexists. eexists. split.
  - apply authorize_redirects. rewrite Hcode. reflexivity.
  - rewrite w3_authorization_query. cbn [In].
    repeat split; auto 10.
Qed.

Lemma profile_posts e s :
  holds "access_token" s = true ->
  handle (profile e) s =
  match provider e (userinfo_call s) with
  | inl x => (inl x, {| session := s; sent := [userinfo_call s] |})
  | inr resp =>
      (if negb (status_code resp =? 200)%Z then
         ret (Text ("获取用户信息失败: " +:+ text resp) 400)
       else
         userinfo <- resp_json resp ;;
         ret (Template "profile.html" [("userinfo", userinfo)]))
        {| session := s; sent := [userinfo_call s] |}
  end.
Proof.
  unfold holds. intros Hs. unfold handle, profile.
  unfold bind at 1, session_get. cbn [session]. rewrite Hs. cbn [negb].
  unfold bind at 1, requests_post, userinfo_call. cbn [session sent app].
  destruct (provider e _); reflexivity.
Qed.

(** C5: a request to /profile from a session with no access_token (the key
    is absent, or its value is falsy) is answered by a redirect to the
    index route / and no provider call is made, in particular none to the
    userinfo endpoint. *)
Theorem profile_without_token e s :
  holds "access_token" s = false ->
  handle (profile e) s = (inr (Redirect "/" []), {| session := s; sent := [] |}) /\
  calls_to USERINFO_URL (sent (snd (handle (profile e) s))) = [].
Proof.
  unfold holds. intros Hs.
  assert (handle (profile e) s = (inr (Redirect "/" []), {| session := s; sent := [] |})) as ->.
  { unfold handle, profile. unfold bind at 1, session_get. cbn [session].
    rewrite Hs. reflexivity. }
  split; reflexivity.
Qed.

(** C6: on a request to /profile from a session that holds an access_token,
    when the userinfo endpoint answers with a status other than 200 the
    response is the plain text of the failure prefix followed by the
    upstream body, with status 400; the only provider call is the one to
    the userinfo endpoint, none is made to the refresh-token endpoint, and
    the session is unchanged. *)
Theorem profile_upstream_error e s r :
  holds "access_token" s = true ->
  provider e (userinfo_call s) = inr r ->
  status_code r <> 200 ->
  handle (profile e) s =
  (inr (Text ("获取用户信息失败: " +:+ text r) 400),
   {| session := s; sent := [userinfo_call s] |}) /\
  calls_to REFRESH_TOKEN_URL (sent (snd (handle (profile e) s))) = [].
Proof.
  intros Hs Hr Hst.
  rewrite (profile_posts e s Hs), Hr, (status_test_other r Hst).
  split; reflexivity.
Qed.

(** [refresh_token] on a session that holds a refresh token, up to the
    provider's answer: of the answer only [resp.json()] is used. *)
Lemma refresh_posts e s :
  holds "refresh_token" s = true ->
  handle (refresh_token e) s =
  match provider e (refresh_call s) with
  | inl x => (inl x, {| session := s; sent := [refresh_call s] |})
  | inr resp =>
      match json resp with
      | Some data => refresh_outcome e data {| session := s; sent := [refresh_call s] |}
      | None => (inl JSONDecodeError, {| session := s; sent := [refresh_call s] |})
      end
  end.
Proof.
  unfold holds. intros Hs. unfold handle, refresh_token.
  unfold bind at 1, session_get. cbn [session]. rewrite Hs. cbn [negb].
  unfold bind at 1. unfold bind at 1.
  unfold requests_post. cbn [session sent app].
  fold (refresh_call s).
  destruct (provider e (refresh_call s)) as [x | resp]; [reflexivity |].
  unfold bind at 1. unfold resp_json.
  destruct (json resp) as [data |]; reflexivity.
Qed.

Lemma refresh_succeeds e s r d v :
  holds "refresh_token" s = true ->
  provider e (refresh_call s) = inr r ->
  json r = Some (PyDict d) ->
  Py.dict_get "access_token" d = Some v ->
  handle (refresh_token e) s =
  (inr (refresh_result ("刷新成功! 新 access_token: " +:+ Py.str (unicode_printable e) v) true),
   {| session := store_tokens d v s; sent := [refresh_call s] |}).
Proof.
  intros Hs Hr Hj Hd. rewrite (refresh_posts e s Hs), Hr, Hj.
  unfold refresh_outcome, bind, lift, ret. cbn [Py.contains]. unfold Py.dict_has. rewrite Hd.
  cbn [Py.getitem]. rewrite Hd. reflexivity.
Qed.

Lemma refresh_fails e s r d :
  holds "refresh_token" s = true ->
  provider e (refresh_call s) = inr r ->
  json r = Some (PyDict d) ->
  Py.dict_get "access_token" d = None ->
  handle (refresh_token e) s =
  (inr (refresh_result ("刷新失败: " +:+ Py.str (unicode_printable e) (PyDict d)) false),
   {| session := s; sent := [refresh_call s] |}).
Proof.
  intros Hs Hr Hj Hd. rewrite (refresh_posts e s Hs), Hr, Hj.
  unfold refresh_outcome, bind, lift, ret. cbn [Py.contains]. unfold Py.dict_has. rewrite Hd.
  reflexivity.
Qed.

(** The failure message prints the parsed object as the interpreter does,
    escapes included. *)
Example refresh_failure_escapes :
  fst (handle (refresh_token (answering (spaced_error 400))) logged_in) =
  inr (refresh_result "刷新失败: {'error': 'bad\u3000grant\xa0'}" false).
Proof.
  rewrite (refresh_fails (answering (spaced_error 400)) logged_in (spaced_error 400)
             [("error", PyStr ("bad" +:+ u3000 +:+ "grant" +:+ u00a0))]
             eq_refl eq_refl eq_refl eq_refl).
  vm_compute. reflexivity.
Qed.

(** C7: a request to /refresh from a session with no refresh_token (the key
    is absent, or its value is falsy) renders the result page with the
    failure message and success false, makes no provider call and leaves
    the session unchanged. *)
Theorem refresh_without_token e s :
  holds "refresh_token" s = false ->
  handle (refresh_token e) s =
  (inr (refresh_result "没有 refresh_token" false), {| session := s; sent := [] |}).
Proof.
  unfold holds. intros Hs. unfold handle, refresh_token.
  unfold bind at 1, session_get. cbn [session]. rewrite Hs. reflexivity.
Qed.

(** C8: on a request to /refresh from a session that holds a refresh_token,
    when the refresh succeeds (the provider's JSON object has the key
    access_token) both session values are overwritten from the provider's
    object, access_token with its access_token and refresh_token with its
    refresh_token ([None] when it has none), and the page is rendered with
    success true and a message that ends with the new access_token as the
    f-string prints it: verbatim when it is a string. *)
Theorem refresh_success e s r d v :
  holds "refresh_token" s = true ->
  provider e (refresh_call s) = inr r ->
  json r = Some (PyDict d) ->
  Py.dict_get "access_token" d = Some v ->
  exists msg,
    handle (refresh_token e) s =
    (inr (refresh_result msg true),
     {| session := store_tokens d v s; sent := [refresh_call s] |}) /\
    store_tokens d v s !! "access_token" = Some v /\
    store_tokens d v s !! "refresh_token" = Some (default PyNone (Py.dict_get "refresh_token" d)) /\
    msg = "刷新成功! 新 access_token: " +:+ Py.str (unicode_printable e) v /\
    (forall t, v = PyStr t -> msg = "刷新成功! 新 access_token: " +:+ t).
Proof.
  intros Hs Hr Hj Hd. eexists. split; [apply (refresh_succeeds e s r d v); assumption |].
  unfold store_tokens. repeat split.
  - rewrite lookup_insert_ne by discriminate. apply lookup_insert_eq.
  - apply lookup_insert_eq.
  - intros t ->. reflexivity.
Qed.

(** C9, as amended: a provider error surfaces as follows.  On /authorize
    and /profile a status other than 200 gives the plain text of the
    failure prefix followed by the raw upstream body, with status 400; on
    /authorize a 200 answer whose JSON object lacks access_token gives the
    plain text of the prefix followed by the parsed object as Python prints
    it, with status 400; on /refresh an answer whose JSON object lacks
    access_token gives the rendered result page (status 200) with success
    false and a message made of the prefix and the parsed object as Python
    prints it. *)
Theorem provider_failures_surface e req s c r :
  (args_get "code" (args req) = PyStr c -> c <> "" ->
   provider e (token_call c) = inr r ->
   (status_code r <> 200 ->
    fst (handle (authorize e req) s) = inr (Text ("获取令牌失败: " +:+ text r) 400)) /\
   (forall d, status_code r = 200 -> json r = Some (PyDict d) ->
              Py.dict_get "access_token" d = None ->
    fst (handle (authorize e req) s) = inr (Text ("获取令牌失败: " +:+ Py.str (unicode_printable e) (PyDict d)) 400))) /\
  (holds "access_token" s = true ->
   provider e (userinfo_call s) = inr r ->
   status_code r <> 200 ->
   fst (handle (profile e) s) = inr (Text ("获取用户信息失败: " +:+ text r) 400)) /\
  (forall d,
   holds "refresh_token" s = true ->
   provider e (refresh_call s) = inr r ->
   json r = Some (PyDict d) ->
   Py.dict_get "access_token" d = None ->
   fst (handle (refresh_token e) s) = inr (refresh_result ("刷新失败: " +:+ Py.str (unicode_printable e) (PyDict d)) false) /\
   status_of (refresh_result ("刷新失败: " +:+ Py.str (unicode_printable e) (PyDict d)) false) = 200).
Proof.
  split; [| split].
  - intros Hcode Hc Hr. rewrite (authorize_posts e req s c Hcode Hc), Hr. split.
    + intros Hst. rewrite (status_test_other r Hst). reflexivity.
    + intros d Hst Hj Hd. rewrite (status_test_200 r Hst).
      unfold bind, resp_json. rewrite Hj. unfold lift, ret. cbn [Py.contains].
      unfold Py.dict_has. rewrite Hd. reflexivity.
  - intros Hs Hr Hst.
    rewrite (profile_posts e s Hs), Hr, (status_test_other r Hst). reflexivity.
  - intros d Hs Hr Hj Hd. rewrite (refresh_fails e s r d Hs Hr Hj Hd).
    split; reflexivity.
Qed.

(** C10: on a request to /refresh from a session that holds a
    refresh_token, the outcome depends on the provider's answer through its
    parsed JSON body only, never through the status code: two answers with
    the same JSON, printed by the same interpreter, give the same response
    and the same session.  When the
    JSON object has the key access_token the refresh is a success whatever
    the status, and both session tokens are overwritten; when it has not,
    it is a failure and the session is kept.  After a success whose object
    has no refresh_token, the session's refresh_token is [None]: the
    session no longer holds one. *)
Theorem refresh_ignores_status e s r :
  holds "refresh_token" s = true ->
  provider e (refresh_call s) = inr r ->
  (forall e' r',
      provider e' (refresh_call s) = inr r' ->
      json r' = json r ->
      unicode_printable e' = unicode_printable e ->
      handle (refresh_token e') s = handle (refresh_token e) s) /\
  (forall d v,
      json r = Some (PyDict d) ->
      Py.dict_get "access_token" d = Some v ->
      handle (refresh_token e) s =
      (inr (refresh_result ("刷新成功! 新 access_token: " +:+ Py.str (unicode_printable e) v) true),
       {| session := store_tokens d v s; sent := [refresh_call s] |}) /\
      (Py.dict_get "refresh_token" d = None ->
       store_tokens d v s !! "refresh_token" = Some PyNone /\
       holds "refresh_token" (store_tokens d v s) = false)) /\
  (forall d,
      json r = Some (PyDict d) ->
      Py.dict_get "access_token" d = None ->
      handle (refresh_token e) s =
      (inr (refresh_result ("刷新失败: " +:+ Py.str (unicode_printable e) (PyDict d)) false),
       {| session := s; sent := [refresh_call s] |})).
Proof.
  intros Hs Hr. split; [| split].
  - intros e' r' Hr' Hj Hp.
    rewrite (refresh_posts e' s Hs), (refresh_posts e s Hs), Hr, Hr', Hj.
    destruct (json r) as [data |]; [| reflexivity].
    unfold refresh_outcome. rewrite Hp. reflexivity.
  - intros d v Hj Hd. split; [apply (refresh_succeeds e s r d v); assumption |].
    intros Hrt. unfold holds, store_tokens. rewrite lookup_insert_eq, Hrt.
    split; reflexivity.
  - intros d Hj Hd. apply (refresh_fails e s r d); assumption.
Qed.

(** ** What the handlers leave to the framework

    Neither handler catches the exception [resp.json()] raises on a body
    that is not JSON: the request ends in the framework's error response,
    after the provider call and with the session as it was. *)

(** X4: on /authorize with a code, a 200 answer whose body is not JSON is
    not caught: [resp.json()] raises, after the one provider call and with
    the session unchanged. *)
Lemma authorize_unparsable_body e req s c r :
  args_get "code" (args req) = PyStr c -> c <> "" ->
  provider e (token_call c) = inr r ->
  status_code r = 200 ->
  json r = None ->
  handle (authorize e req) s =
  (inl JSONDecodeError, {| session := s; sent := [token_call c] |}).
Proof.
  intros Hcode Hc Hr Hst Hj.
  rewrite (authorize_posts e req s c Hcode Hc), Hr, (status_test_200 r Hst).
  unfold bind, resp_json. rewrite Hj. reflexivity.
Qed.

(** X5: on /refresh with a refresh token in session, an answer whose body
    is not JSON, of any status, is not caught: [resp.json()] raises, after
    the one provider call and with the session unchanged. *)
Lemma refresh_unparsable_body e s r :
  holds "refresh_token" s = true ->
  provider e (refresh_call s) = inr r ->
  json r = None ->
  handle (refresh_token e) s =
  (inl JSONDecodeError, {| session := s; sent := [refresh_call s] |}).
Proof.
  intros Hs Hr Hj. rewrite (refresh_posts e s Hs), Hr, Hj. reflexivity.
Qed.

(** * Concrete runs *)

Lemma authorize_code_exchange_witness :
  handle (authorize (answering token_ok) callback_request) ∅ =
  (inr (Redirect "/welcome" []),
   {| session := <["refresh_token" := PyStr "RT-1"]> (<["access_token" := PyStr "AT-1"]> ∅);
      sent := [token_call "abc"] |}).
Proof.
  refine (proj2 (authorize_code_exchange (answering token_ok) callback_request ∅ "abc"
                   eq_refl _)
            token_ok _ (PyStr "AT-1") eq_refl eq_refl eq_refl eq_refl).
  discriminate.
Defined.

Lemma authorize_exchange_failure_witness :
  handle (authorize (answering (invalid_grant 400)) callback_request) ∅ =
  (inr (Text ("获取令牌失败: " +:+ text (invalid_grant 400)) 400),
   {| session := ∅; sent := [token_call "abc"] |}) /\
  handle (authorize (answering (invalid_grant 200)) callback_request) ∅ =
  (inr (Text "获取令牌失败: {'error': 'invalid_grant'}" 400),
   {| session := ∅; sent := [token_call "abc"] |}).
Proof.
  assert (Hc : "abc" <> "") by discriminate.
  split.
  - refine (proj1 (authorize_exchange_failure (answering (invalid_grant 400)) callback_request
                     ∅ "abc" (invalid_grant 400) eq_refl Hc eq_refl) _).
    discriminate.
  - exact (proj2 (authorize_exchange_failure (answering (invalid_grant 200)) callback_request
                    ∅ "abc" (invalid_grant 200) eq_refl Hc eq_refl)
             [("error", PyStr "invalid_grant")] eq_refl eq_refl eq_refl).
Defined.

(** C2 as stated fails on two 200 answers that lack the access_token
    field.  A body that is not JSON (an HTML page) makes [resp.json()]
    raise: no 400 response is returned.  A JSON object without the field
    gives the 400 text, but with the parsed object as Python prints it,
    which does not contain the upstream body. *)
Lemma authorize_failure_not_always_400 :
  args_get "code" (args callback_request) = PyStr "abc" /\
  (status_code (html_page 200) = 200 /\ json (html_page 200) = None /\
   fst (handle (authorize (answering (html_page 200)) callback_request) ∅)
   = inl JSONDecodeError /\
   ~ (exists body,
         fst (handle (authorize (answering (html_page 200)) callback_request) ∅)
         = inr (Text body 400))) /\
  (status_code (invalid_grant 200) = 200 /\
   fst (handle (authorize (answering (invalid_grant 200)) callback_request) ∅)
   = inr (Text "获取令牌失败: {'error': 'invalid_grant'}" 400) /\
   Py.substring_of (text (invalid_grant 200)) "获取令牌失败: {'error': 'invalid_grant'}"
   = false).
Proof.
  assert (Hc : "abc" <> "") by discriminate.
  split; [reflexivity |]. split.
  - assert (H : fst (handle (authorize (answering (html_page 200)) callback_request) ∅)
                = inl JSONDecodeError).
    { rewrite (authorize_posts (answering (html_page 200)) callback_request ∅ "abc"
                 eq_refl Hc).
      reflexivity. }
    split; [reflexivity |]. split; [reflexivity |]. split; [exact H |].
    intros [body Hb]. rewrite H in Hb. discriminate Hb.
  - split; [reflexivity |]. split.
    + rewrite (authorize_posts (answering (invalid_grant 200)) callback_request ∅ "abc"
                 eq_refl Hc).
      reflexivity.
    + vm_compute. reflexivity.
Qed.

Lemma authorize_without_code_witness :
  exists q w,
    handle (authorize (answering token_ok) plain_request) ∅ = (inr (Redirect AUTHORIZE_URL q), w) /\
    In ("client_id", CLIENT_ID) q /\
    In ("redirect_uri", REDIRECT_URI) q /\
    sent w = [] /\
    calls_to ACCESS_TOKEN_URL (sent w) = [].
Proof.
  exact (authorize_without_code (answering token_ok) plain_request ∅ eq_refl).
Defined.

(** C4 as stated fails: the redirect of a request without [code] carries a
    state parameter. *)
Lemma authorize_redirect_carries_state :
  fst (handle (authorize (answering token_ok) plain_request) ∅) =
  inr (Redirect AUTHORIZE_URL
         [ ("response_type", "code"); ("client_id", "airview_login");
           ("redirect_uri", "https://airview.rnd.huawei.com/authorize");
           ("scope", "base.profile");
           ("state", "kkkkkkkkkkkkkkkkkkkkkkkkkkkkkk") ]) /\
  args_get "code" (args plain_request) = PyNone /\
  ~ (forall r, fst (handle (authorize (answering token_ok) plain_request) ∅) = inr r ->
               carries "state" r = false).
Proof.
  split; [reflexivity |]. split; [reflexivity |].
  intros H. specialize (H _ eq_refl). discriminate H.
Qed.

Lemma authorize_redirect_parameters_witness :
  exists q w,
    handle (authorize (answering token_ok) plain_request) ∅ = (inr (Redirect AUTHORIZE_URL q), w) /\
    map fst q = ["response_type"; "client_id"; "redirect_uri"; "scope"; "state"] /\
    In ("state", token_of 30) q /\
    carries "state" (Redirect AUTHORIZE_URL q) = true /\
    carries "nonce" (Redirect AUTHORIZE_URL q) = false /\
    carries "code_challenge" (Redirect AUTHORIZE_URL q) = false /\
    carries "code_challenge_method" (Redirect AUTHORIZE_URL q) = false.
Proof.
  exact (authorize_redirect_parameters (answering token_ok) plain_request ∅ eq_refl).
Defined.

Lemma profile_without_token_witness :
  handle (profile (answering token_ok)) ∅ =
  (inr (Redirect "/" []), {| session := ∅; sent := [] |}) /\
  calls_to USERINFO_URL (sent (snd (handle (profile (answering token_ok)) ∅))) = [].
Proof.
  exact (profile_without_token (answering token_ok) ∅ eq_refl).
Defined.

Lemma profile_upstream_error_witness :
  handle (profile (answering (invalid_grant 401))) logged_in =
  (inr (Text ("获取用户信息失败: " +:+ text (invalid_grant 401)) 400),
   {| session := logged_in; sent := [userinfo_call logged_in] |}) /\
  calls_to REFRESH_TOKEN_URL
    (sent (snd (handle (profile (answering (invalid_grant 401))) logged_in))) = [].
Proof.
  refine (profile_upstream_error (answering (invalid_grant 401)) logged_in (invalid_grant 401)
            eq_refl eq_refl _).
  discriminate.
Defined.

Lemma refresh_without_token_witness :
  handle (refresh_token (answering token_ok)) ∅ =
  (inr (refresh_result "没有 refresh_token" false), {| session := ∅; sent := [] |}).
Proof.
  exact (refresh_without_token (answering token_ok) ∅ eq_refl).
Defined.

Lemma refresh_success_witness :
  exists msg,
    handle (refresh_token (answering token_ok)) logged_in =
    (inr (refresh_result msg true),
     {| session := store_tokens [("access_token", PyStr "AT-1"); ("refresh_token", PyStr "RT-1")]
                     (PyStr "AT-1") logged_in;
        sent := [refresh_call logged_in] |}) /\
    store_tokens [("access_token", PyStr "AT-1"); ("refresh_token", PyStr "RT-1")]
      (PyStr "AT-1") logged_in !! "access_token" = Some (PyStr "AT-1") /\
    store_tokens [("access_token", PyStr "AT-1"); ("refresh_token", PyStr "RT-1")]
      (PyStr "AT-1") logged_in !! "refresh_token" = Some (PyStr "RT-1") /\
    msg = "刷新成功! 新 access_token: AT-1" /\
    (forall t, PyStr "AT-1" = PyStr t -> msg = "刷新成功! 新 access_token: " +:+ t).
Proof.
  exact (refresh_success (answering token_ok) logged_in token_ok
           [("access_token", PyStr "AT-1"); ("refresh_token", PyStr "RT-1")] (PyStr "AT-1")
           eq_refl eq_refl eq_refl eq_refl).
Defined.

(** C9 as stated fails on /refresh: a provider error (status 400, body
    without access_token) is answered by the rendered result page, status
    200, whose message has the parsed object as Python prints it and not the
    raw upstream body. *)
Lemma refresh_failure_is_a_page :
  fst (handle (refresh_token (answering (invalid_grant 400))) logged_in) =
  inr (refresh_result "刷新失败: {'error': 'invalid_grant'}" false) /\
  status_of (refresh_result "刷新失败: {'error': 'invalid_grant'}" false) = 200 /\
  Py.substring_of (text (invalid_grant 400)) "刷新失败: {'error': 'invalid_grant'}" = false /\
  ~ (exists body,
        fst (handle (refresh_token (answering (invalid_grant 400))) logged_in)
        = inr (Text body 400)).
Proof.
  assert (H : fst (handle (refresh_token (answering (invalid_grant 400))) logged_in) =
              inr (refresh_result "刷新失败: {'error': 'invalid_grant'}" false)).
  { rewrite (refresh_fails (answering (invalid_grant 400)) logged_in (invalid_grant 400)
               [("error", PyStr "invalid_grant")] eq_refl eq_refl eq_refl eq_refl).
    reflexivity. }
  split; [exact H |]. split; [reflexivity |]. split; [vm_compute; reflexivity |].
  intros [body Hb]. rewrite H in Hb. discriminate Hb.
Qed.

Lemma provider_failures_surface_witness :
  fst (handle (authorize (answering (invalid_grant 400)) callback_request) ∅) =
  inr (Text ("获取令牌失败: " +:+ text (invalid_grant 400)) 400) /\
  fst (handle (authorize (answering (invalid_grant 200)) callback_request) ∅) =
  inr (Text "获取令牌失败: {'error': 'invalid_grant'}" 400) /\
  fst (handle (profile (answering (invalid_grant 401))) logged_in) =
  inr (Text ("获取用户信息失败: " +:+ text (invalid_grant 401)) 400) /\
  fst (handle (refresh_token (answering (invalid_grant 400))) logged_in) =
  inr (refresh_result "刷新失败: {'error': 'invalid_grant'}" false).
Proof.
  assert (Hc : "abc" <> "") by discriminate.
  assert (H400 : status_code (invalid_grant 400) <> 200) by discriminate.
  assert (H401 : status_code (invalid_grant 401) <> 200) by discriminate.
  split; [| split; [| split]].
  - exact (proj1 (proj1 (provider_failures_surface (answering (invalid_grant 400))
                           callback_request ∅ "abc" (invalid_grant 400))
                    eq_refl Hc eq_refl) H400).
  - exact (proj2 (proj1 (provider_failures_surface (answering (invalid_grant 200))
                           callback_request ∅ "abc" (invalid_grant 200))
                    eq_refl Hc eq_refl)
             [("error", PyStr "invalid_grant")] eq_refl eq_refl eq_refl).
  - exact (proj1 (proj2 (provider_failures_surface (answering (invalid_grant 401))
                           callback_request logged_in "abc" (invalid_grant 401)))
             eq_refl eq_refl H401).
  - exact (proj1 (proj2 (proj2 (provider_failures_surface (answering (invalid_grant 400))
                                  callback_request logged_in "abc" (invalid_grant 400)))
                    [("error", PyStr "invalid_grant")] eq_refl eq_refl eq_refl eq_refl)).
Defined.

Lemma refresh_ignores_status_witness :
  handle (refresh_token (answering (access_only 200))) logged_in =
  handle (refresh_token (answering (access_only 500))) logged_in /\
  handle (refresh_token (answering (access_only 500))) logged_in =
  (inr (refresh_result "刷新成功! 新 access_token: AT-2" true),
   {| session := store_tokens [("access_token", PyStr "AT-2")] (PyStr "AT-2") logged_in;
      sent := [refresh_call logged_in] |}) /\
  store_tokens [("access_token", PyStr "AT-2")] (PyStr "AT-2") logged_in !! "refresh_token"
  = Some PyNone /\
  holds "refresh_token" (store_tokens [("access_token", PyStr "AT-2")] (PyStr "AT-2") logged_in)
  = false /\
  handle (refresh_token (answering (invalid_grant 200))) logged_in =
  (inr (refresh_result "刷新失败: {'error': 'invalid_grant'}" false),
   {| session := logged_in; sent := [refresh_call logged_in] |}).
Proof.
  pose proof (refresh_ignores_status (answering (access_only 500)) logged_in (access_only 500)
                eq_refl eq_refl) as [Hsame [Hok _]].
  pose proof (refresh_ignores_status (answering (invalid_grant 200)) logged_in (invalid_grant 200)
                eq_refl eq_refl) as [_ [_ Hko]].
  destruct (Hok [("access_token", PyStr "AT-2")] (PyStr "AT-2") eq_refl eq_refl) as [Hrun Habsent].
  destruct (Habsent eq_refl) as [Hnone Hholds].
  split; [exact (Hsame (answering (access_only 200)) (access_only 200) eq_refl eq_refl eq_refl) |].
  split; [exact Hrun |]. split; [exact Hnone |]. split; [exact Hholds |].
  exact (Hko [("error", PyStr "invalid_grant")] eq_refl eq_refl).
Defined.

(** * Further properties of the handlers *)

Lemma args_get_cases k l : args_get k l = PyNone \/ exists v, args_get k l = PyStr v.
Proof.
  induction l as [| [k' v] l IH]; cbn [args_get]; [left; reflexivity |].
  destruct (String.eqb k k'); [right; eexists; reflexivity | exact IH].
Qed.

Lemma truthy_str_nonempty c : Py.truthy (PyStr c) = true -> c <> "".
Proof.
  cbn [Py.truthy]. destruct (String.eqb_spec c "") as [-> | Hne]; [discriminate | auto].
Qed.

(** Every way the exchange path of [authorize] can end. *)
Lemma authorize_exchange_cases e req s c :
  args_get "code" (args req) = PyStr c -> c <> "" ->
  sent (snd (handle (authorize e req) s)) = [token_call c] /\
  ((exists r d v,
       provider e (token_call c) = inr r /\ status_code r = 200 /\
       json r = Some (PyDict d) /\ Py.dict_get "access_token" d = Some v /\
       handle (authorize e req) s =
       (inr (Redirect "/welcome" []), {| session := store_tokens d v s; sent := [token_call c] |}))
   \/
   (session (snd (handle (authorize e req) s)) = s /\
    ((exists x, fst (handle (authorize e req) s) = inl x /\
                (provider e (token_call c) = inl x \/ x = JSONDecodeError \/ x = TypeError))
     \/ exists body, fst (handle (authorize e req) s) = inr (Text body 400)))).
Proof.
  intros Hcode Hc. rewrite (authorize_posts e req s c Hcode Hc).
  destruct (provider e (token_call c)) as [x | r] eqn:Hr.
  { split; [reflexivity |]. right. split; [reflexivity |]. left. eauto. }
  destruct (Z.eqb_spec (status_code r) 200) as [Hst | Hst]; cbn [negb].
  2:{ split; [reflexivity |]. right. split; [reflexivity |]. right. eexists. reflexivity. }
  unfold bind, resp_json. destruct (json r) as [token |] eqn:Hj.
  2:{ split; [reflexivity |]. right. split; [reflexivity |]. left. eauto. }
  unfold lift, ret.
  destruct token as [| b | z | f | t | l | d]; cbn [Py.contains];
    try (split; [reflexivity |]; right; split; [reflexivity |]; left; eauto; fail).
  - destruct (Py.substring_of "access_token" t); cbn [negb Py.getitem];
      (split; [reflexivity |]; right; split; [reflexivity |]); [left | right]; eauto.
  - destruct (existsb (Py.is_str "access_token") l); cbn [negb Py.getitem];
      (split; [reflexivity |]; right; split; [reflexivity |]); [left | right]; eauto.
  - unfold Py.dict_has. destruct (Py.dict_get "access_token" d) as [v |] eqn:Hd;
      cbn [negb Py.getitem].
    + rewrite Hd. split; [reflexivity |]. left. exists r, d, v. repeat split; auto.
    + split; [reflexivity |]. right. split; [reflexivity |]. right. eauto.
Qed.

(** Every way [refresh_token] can end on a session that holds a refresh
    token. *)
Lemma refresh_cases e s :
  holds "refresh_token" s = true ->
  sent (snd (handle (refresh_token e) s)) = [refresh_call s] /\
  ((exists r d v,
       provider e (refresh_call s) = inr r /\
       json r = Some (PyDict d) /\ Py.dict_get "access_token" d = Some v /\
       handle (refresh_token e) s =
       (inr (refresh_result ("刷新成功! 新 access_token: " +:+ Py.str (unicode_printable e) v) true),
        {| session := store_tokens d v s; sent := [refresh_call s] |}))
   \/
   (session (snd (handle (refresh_token e) s)) = s /\
    ((exists x, fst (handle (refresh_token e) s) = inl x /\
                (provider e (refresh_call s) = inl x \/ x = JSONDecodeError \/ x = TypeError))
     \/ exists msg, fst (handle (refresh_token e) s) = inr (refresh_result msg false)))).
Proof.
  intros Hs. rewrite (refresh_posts e s Hs).
  destruct (provider e (refresh_call s)) as [x | r] eqn:Hr.
  { split; [reflexivity |]. right. split; [reflexivity |]. left. eauto. }
  destruct (json r) as [token |] eqn:Hj.
  2:{ split; [reflexivity |]. right. split; [reflexivity |]. left. eauto. }
  unfold refresh_outcome, bind, lift, ret.
  destruct token as [| b | z | f | t | l | d]; cbn [Py.contains];
    try (split; [reflexivity |]; right; split; [reflexivity |]; left; eauto; fail).
  - destruct (Py.substring_of "access_token" t); cbn [Py.getitem];
      (split; [reflexivity |]; right; split; [reflexivity |]); [left | right]; eauto.
  - destruct (existsb (Py.is_str "access_token") l); cbn [Py.getitem];
      (split; [reflexivity |]; right; split; [reflexivity |]); [left | right]; eauto.
  - unfold Py.dict_has. destruct (Py.dict_get "access_token" d) as [v |] eqn:Hd;
      cbn [Py.getitem].
    + rewrite Hd. split; [reflexivity |]. left. exists r, d, v. repeat split; auto.
    + split; [reflexivity |]. right. split; [reflexivity |]. right. eauto.
Qed.

(** Every way [profile] can end. *)
Lemma profile_cases e s :
  session (snd (handle (profile e) s)) = s /\
  sent (snd (handle (profile e) s)) = (if holds "access_token" s then [userinfo_call s] else []) /\
  forall x, fst (handle (profile e) s) = inl x ->
            provider e (userinfo_call s) = inl x \/ x = JSONDecodeError.
Proof.
  destruct (holds "access_token" s) eqn:Hs.
  - rewrite (profile_posts e s Hs).
    destruct (provider e (userinfo_call s)) as [x | r] eqn:Hr.
    { repeat split. intros y Hy. cbn in Hy. injection Hy as <-. left. reflexivity. }
    destruct (negb (status_code r =? 200)%Z).
    { repeat split. intros y Hy. discriminate Hy. }
    unfold bind, resp_json. destruct (json r).
    + repeat split. intros y Hy. discriminate Hy.
    + repeat split. intros y Hy. right. cbn in Hy. congruence.
  - assert (handle (profile e) s = (inr (Redirect "/" []), {| session := s; sent := [] |}))
      as ->.
    { unfold holds in Hs. unfold handle, profile. unfold bind at 1, session_get.
      cbn [session]. rewrite Hs. reflexivity. }
    repeat split. intros y Hy. discriminate Hy.
Qed.

Lemma refresh_skips e s :
  holds "refresh_token" s = false ->
  handle (refresh_token e) s =
  (inr (refresh_result "没有 refresh_token" false), {| session := s; sent := [] |}).
Proof.
  unfold holds. intros Hs. unfold handle, refresh_token.
  unfold bind at 1, session_get. cbn [session]. rewrite Hs. reflexivity.
Qed.

Lemma profile_skips e s :
  holds "access_token" s = false ->
  handle (profile e) s = (inr (Redirect "/" []), {| session := s; sent := [] |}).
Proof.
  unfold holds. intros Hs. unfold handle, profile.
  unfold bind at 1, session_get. cbn [session]. rewrite Hs. reflexivity.
Qed.

Lemma store_tokens_other d v s k :
  k <> "access_token" -> k <> "refresh_token" -> store_tokens d v s !! k = s !! k.
Proof.
  intros Ha Hr. unfold store_tokens.
  rewrite lookup_insert_ne by congruence. rewrite lookup_insert_ne by congruence.
  reflexivity.
Qed.

Lemma store_tokens_access d v s : store_tokens d v s !! "access_token" = Some v.
Proof.
  unfold store_tokens. rewrite lookup_insert_ne by discriminate. apply lookup_insert_eq.
Qed.

Lemma store_tokens_refresh d v s :
  store_tokens d v s !! "refresh_token" = Some (default PyNone (Py.dict_get "refresh_token" d)).
Proof. unfold store_tokens. apply lookup_insert_eq. Qed.

(** X1: /logout empties the session whatever it held and redirects to the
    provider's logout URL with clientId and the external /login URL, without
    any provider call; on the session it leaves, /profile redirects to / and
    /refresh renders the no-token page, both without a provider call. *)
Theorem logout_ends_session e req s :
  handle (logout req) s =
  (inr (Redirect LOGOUT_URL [("clientId", CLIENT_ID); ("redirect", url_root req +:+ "/login")]),
   {| session := ∅; sent := [] |}) /\
  handle (profile e) (session (snd (handle (logout req) s))) =
  (inr (Redirect "/" []), {| session := ∅; sent := [] |}) /\
  handle (refresh_token e) (session (snd (handle (logout req) s))) =
  (inr (refresh_result "没有 refresh_token" false), {| session := ∅; sent := [] |}).
Proof.
  assert (Hout : handle (logout req) s =
                 (inr (Redirect LOGOUT_URL
                         [("clientId", CLIENT_ID); ("redirect", url_root req +:+ "/login")]),
                  {| session := ∅; sent := [] |})) by reflexivity.
  rewrite Hout. cbn [snd session]. split; [reflexivity |]. split.
  - apply profile_skips. reflexivity.
  - apply refresh_skips. reflexivity.
Qed.

(** X2: on /profile with an access token in session, a 200 answer with a
    JSON body renders profile.html with that parsed body, whatever JSON
    value it is, as [userinfo]; one call was made, to the userinfo endpoint,
    with client_id, the session's access_token and the scope; the session is
    unchanged. *)
Theorem profile_renders_userinfo e s r u :
  holds "access_token" s = true ->
  provider e (userinfo_call s) = inr r ->
  status_code r = 200 ->
  json r = Some u ->
  handle (profile e) s =
  (inr (Template "profile.html" [("userinfo", u)]),
   {| session := s; sent := [userinfo_call s] |}).
Proof.
  intros Hs Hr Hst Hj. rewrite (profile_posts e s Hs), Hr, (status_test_200 r Hst).
  unfold bind, resp_json. rewrite Hj. reflexivity.
Qed.

Lemma profile_renders_userinfo_witness :
  handle (profile (answering userinfo_ok)) logged_in =
  (inr (Template "profile.html" [("userinfo", PyDict [("uid", PyStr "u123")])]),
   {| session := logged_in; sent := [userinfo_call logged_in] |}).
Proof.
  exact (profile_renders_userinfo (answering userinfo_ok) logged_in userinfo_ok _
           eq_refl eq_refl eq_refl eq_refl).
Defined.

(** X3: on /profile, a 200 answer whose body is not JSON is not caught:
    [resp.json()] raises, after the one provider call and with the session
    unchanged. *)
Theorem profile_unparsable_body e s r :
  holds "access_token" s = true ->
  provider e (userinfo_call s) = inr r ->
  status_code r = 200 ->
  json r = None ->
  handle (profile e) s =
  (inl JSONDecodeError, {| session := s; sent := [userinfo_call s] |}).
Proof.
  intros Hs Hr Hst Hj. rewrite (profile_posts e s Hs), Hr, (status_test_200 r Hst).
  unfold bind, resp_json. rewrite Hj. reflexivity.
Qed.

Lemma profile_unparsable_body_witness :
  handle (profile (answering (html_page 200))) logged_in =
  (inl JSONDecodeError, {| session := logged_in; sent := [userinfo_call logged_in] |}).
Proof.
  exact (profile_unparsable_body (answering (html_page 200)) logged_in (html_page 200)
           eq_refl eq_refl eq_refl eq_refl).
Defined.

Lemma authorize_unparsable_body_witness :
  handle (authorize (answering (html_page 200)) callback_request) ∅ =
  (inl JSONDecodeError, {| session := ∅; sent := [token_call "abc"] |}).
Proof.
  refine (authorize_unparsable_body (answering (html_page 200)) callback_request ∅ "abc"
            (html_page 200) eq_refl _ eq_refl eq_refl eq_refl).
  discriminate.
Defined.

Lemma refresh_unparsable_body_witness :
  handle (refresh_token (answering (html_page 502))) logged_in =
  (inl JSONDecodeError, {| session := logged_in; sent := [refresh_call logged_in] |}).
Proof.
  exact (refresh_unparsable_body (answering (html_page 502)) logged_in (html_page 502)
           eq_refl eq_refl eq_refl).
Defined.

(** X6: no handler catches the exception of a failed [requests.post]: on
    each of the three routes it ends the request, after the one attempted
    call and with the session unchanged. *)
Theorem transport_failure_propagates e req s c x :
  (args_get "code" (args req) = PyStr c -> c <> "" ->
   provider e (token_call c) = inl x ->
   handle (authorize e req) s = (inl x, {| session := s; sent := [token_call c] |})) /\
  (holds "access_token" s = true ->
   provider e (userinfo_call s) = inl x ->
   handle (profile e) s = (inl x, {| session := s; sent := [userinfo_call s] |})) /\
  (holds "refresh_token" s = true ->
   provider e (refresh_call s) = inl x ->
   handle (refresh_token e) s = (inl x, {| session := s; sent := [refresh_call s] |})).
Proof.
  split; [| split].
  - intros Hcode Hc Hr. rewrite (authorize_posts e req s c Hcode Hc), Hr. reflexivity.
  - intros Hs Hr. rewrite (profile_posts e s Hs), Hr. reflexivity.
  - intros Hs Hr. rewrite (refresh_posts e s Hs), Hr. reflexivity.
Qed.

Lemma transport_failure_propagates_witness :
  handle (authorize unreachable callback_request) logged_in =
  (inl RequestException, {| session := logged_in; sent := [token_call "abc"] |}) /\
  handle (profile unreachable) logged_in =
  (inl RequestException, {| session := logged_in; sent := [userinfo_call logged_in] |}) /\
  handle (refresh_token unreachable) logged_in =
  (inl RequestException, {| session := logged_in; sent := [refresh_call logged_in] |}).
Proof.
  assert (Hc : "abc" <> "") by discriminate.
  pose proof (transport_failure_propagates unreachable callback_request logged_in "abc"
                RequestException) as [Ha [Hp Hr]].
  split; [exact (Ha eq_refl Hc eq_refl) |].
  split; [exact (Hp eq_refl eq_refl) | exact (Hr eq_refl eq_refl)].
Defined.

(** X7: /profile never writes the session, on any path; it makes a provider
    call exactly when the session holds an access token, a single one, to
    the userinfo endpoint. *)
Theorem profile_is_read_only e s :
  session (snd (handle (profile e) s)) = s /\
  sent (snd (handle (profile e) s)) = (if holds "access_token" s then [userinfo_call s] else []).
Proof.
  destruct (profile_cases e s) as [Hsess [Hsent _]]. split; assumption.
Qed.

Lemma authorize_sent e req s :
  sent (snd (handle (authorize e req) s)) = [] \/
  exists c, sent (snd (handle (authorize e req) s)) = [token_call c].
Proof.
  destruct (Py.truthy (args_get "code" (args req))) eqn:Ht.
  - destruct (args_get_cases "code" (args req)) as [Hn | [c Hc]].
    + rewrite Hn in Ht. discriminate Ht.
    + rewrite Hc in Ht. right. exists c.
      apply (authorize_exchange_cases e req s c Hc (truthy_str_nonempty c Ht)).
  - left. rewrite (authorize_redirects e req s Ht). reflexivity.
Qed.

Lemma refresh_sent e s :
  sent (snd (handle (refresh_token e) s)) =
  (if holds "refresh_token" s then [refresh_call s] else []).
Proof.
  destruct (holds "refresh_token" s) eqn:Hs.
  - apply (refresh_cases e s Hs).
  - rewrite (refresh_skips e s Hs). reflexivity.
Qed.

(** X8: a request makes at most one provider call, on every path of every
    handler (no retry), and only to the handler's own endpoint: the token
    endpoint for /authorize, the userinfo endpoint for /profile, the
    refresh-token endpoint for /refresh. *)
Theorem single_provider_call e req s :
  ((length (sent (snd (handle (authorize e req) s))) <= 1)%nat /\
   Forall (fun c => url c = ACCESS_TOKEN_URL) (sent (snd (handle (authorize e req) s)))) /\
  ((length (sent (snd (handle (profile e) s))) <= 1)%nat /\
   Forall (fun c => url c = USERINFO_URL) (sent (snd (handle (profile e) s)))) /\
  ((length (sent (snd (handle (refresh_token e) s))) <= 1)%nat /\
   Forall (fun c => url c = REFRESH_TOKEN_URL) (sent (snd (handle (refresh_token e) s)))).
Proof.
  split; [| split].
  - destruct (authorize_sent e req s) as [-> | [c ->]]; cbn [length]; split;
      try lia; repeat constructor.
  - destruct (profile_cases e s) as [_ [-> _]].
    destruct (holds "access_token" s); cbn [length]; split; try lia; repeat constructor.
  - rewrite (refresh_sent e s).
    destruct (holds "refresh_token" s); cbn [length]; split; try lia; repeat constructor.
Qed.

(** X9: the code exchange writes the session all or nothing.  Either the
    provider answered 200 with a JSON object holding access_token, the
    response is the redirect to /welcome and both tokens are stored from
    that object; or the session is exactly what it was and the response is
    not that redirect.  Never is access_token stored alone. *)
Theorem authorize_writes_both_or_none e req s c :
  args_get "code" (args req) = PyStr c -> c <> "" ->
  (exists r d v,
      provider e (token_call c) = inr r /\ status_code r = 200 /\
      json r = Some (PyDict d) /\ Py.dict_get "access_token" d = Some v /\
      fst (handle (authorize e req) s) = inr (Redirect "/welcome" []) /\
      session (snd (handle (authorize e req) s)) = store_tokens d v s)
  \/
  (session (snd (handle (authorize e req) s)) = s /\
   fst (handle (authorize e req) s) <> inr (Redirect "/welcome" [])).
Proof.
  intros Hcode Hc.
  destruct (authorize_exchange_cases e req s c Hcode Hc) as [_ [Hok | [Hs Hko]]].
  - left. destruct Hok as (r & d & v & Hr & Hst & Hj & Hd & Hout).
    exists r, d, v. rewrite Hout. repeat split; assumption.
  - right. split; [exact Hs |].
    destruct Hko as [[x [Hx _]] | [body Hb]]; [rewrite Hx | rewrite Hb]; discriminate.
Qed.

Lemma authorize_writes_both_or_none_witness :
  (exists r d v,
      provider (answering token_ok) (token_call "abc") = inr r /\ status_code r = 200 /\
      json r = Some (PyDict d) /\ Py.dict_get "access_token" d = Some v /\
      fst (handle (authorize (answering token_ok) callback_request) logged_in)
      = inr (Redirect "/welcome" []) /\
      session (snd (handle (authorize (answering token_ok) callback_request) logged_in))
      = store_tokens d v logged_in)
  \/
  (session (snd (handle (authorize (answering token_ok) callback_request) logged_in)) = logged_in /\
   fst (handle (authorize (answering token_ok) callback_request) logged_in)
   <> inr (Redirect "/welcome" [])).
Proof.
  refine (authorize_writes_both_or_none (answering token_ok) callback_request logged_in
            "abc" eq_refl _).
  discriminate.
Defined.

(** X10: /refresh writes the session all or nothing, on every session and
    every provider answer.  Either the provider's JSON object holds
    access_token, the page reports success and both tokens are stored from
    that object; or the session is exactly what it was and the page, if
    any, does not report success. *)
Theorem refresh_writes_both_or_none e s :
  (exists r d v,
      holds "refresh_token" s = true /\
      provider e (refresh_call s) = inr r /\
      json r = Some (PyDict d) /\ Py.dict_get "access_token" d = Some v /\
      fst (handle (refresh_token e) s) =
      inr (refresh_result ("刷新成功! 新 access_token: " +:+ Py.str (unicode_printable e) v) true) /\
      session (snd (handle (refresh_token e) s)) = store_tokens d v s)
  \/
  (session (snd (handle (refresh_token e) s)) = s /\
   forall msg, fst (handle (refresh_token e) s) <> inr (refresh_result msg true)).
Proof.
  destruct (holds "refresh_token" s) eqn:Hs.
  - destruct (refresh_cases e s Hs) as [_ [Hok | [Hsess Hko]]].
    + left. destruct Hok as (r & d & v & Hr & Hj & Hd & Hout).
      exists r, d, v. rewrite Hout. repeat split; assumption.
    + right. split; [exact Hsess |]. intros msg.
      destruct Hko as [[x [Hx _]] | [m Hm]]; [rewrite Hx | rewrite Hm]; discriminate.
  - right. rewrite (refresh_skips e s Hs). split; [reflexivity |].
    intros msg. discriminate.
Qed.

(** X11: the code exchange and /refresh touch no session key other than
    access_token and refresh_token: on every path, every other key keeps
    its binding. *)
Theorem other_session_keys_kept e req s c k :
  k <> "access_token" -> k <> "refresh_token" ->
  (args_get "code" (args req) = PyStr c -> c <> "" ->
   session (snd (handle (authorize e req) s)) !! k = s !! k) /\
  session (snd (handle (refresh_token e) s)) !! k = s !! k.
Proof.
  intros Ha Hr. split.
  - intros Hcode Hc.
    destruct (authorize_exchange_cases e req s c Hcode Hc) as [_ [Hok | [-> _]]];
      [| reflexivity].
    destruct Hok as (r & d & v & _ & _ & _ & _ & ->). cbn [snd session].
    apply store_tokens_other; assumption.
  - destruct (holds "refresh_token" s) eqn:Hs.
    + destruct (refresh_cases e s Hs) as [_ [Hok | [-> _]]]; [| reflexivity].
      destruct Hok as (r & d & v & _ & _ & _ & ->). cbn [snd session].
      apply store_tokens_other; assumption.
    + rewrite (refresh_skips e s Hs). reflexivity.
Qed.

Lemma other_session_keys_kept_witness :
  session (snd (handle (authorize (answering token_ok) callback_request) with_flash)) !! "_flashes"
  = Some (PyList [PyStr "hello"]) /\
  session (snd (handle (refresh_token (answering token_ok)) with_flash)) !! "_flashes"
  = Some (PyList [PyStr "hello"]).
Proof.
  assert (Hc : "abc" <> "") by discriminate.
  assert (Ha : "_flashes" <> "access_token") by discriminate.
  assert (Hr : "_flashes" <> "refresh_token") by discriminate.
  destruct (other_session_keys_kept (answering token_ok) callback_request with_flash "abc"
              "_flashes" Ha Hr) as [H1 H2].
  split; [rewrite (H1 eq_refl Hc) | rewrite H2]; reflexivity.
Defined.

(** X12: when a refresh succeeds on an object that has no refresh_token
    (the provider does not rotate it), the stored refresh token is lost:
    the next /refresh, whatever the provider would answer, makes no
    provider call and renders the no-token page. *)
Theorem refresh_without_rotation e e' s r d v :
  holds "refresh_token" s = true ->
  provider e (refresh_call s) = inr r ->
  json r = Some (PyDict d) ->
  Py.dict_get "access_token" d = Some v ->
  Py.dict_get "refresh_token" d = None ->
  handle (refresh_token e') (session (snd (handle (refresh_token e) s))) =
  (inr (refresh_result "没有 refresh_token" false),
   {| session := store_tokens d v s; sent := [] |}).
Proof.
  intros Hs Hr Hj Hd Hrt. rewrite (refresh_succeeds e s r d v Hs Hr Hj Hd).
  cbn [snd session]. apply refresh_skips.
  unfold holds. rewrite store_tokens_refresh, Hrt. reflexivity.
Qed.

Lemma refresh_without_rotation_witness :
  handle (refresh_token (answering token_ok))
    (session (snd (handle (refresh_token (answering (access_only 200))) logged_in))) =
  (inr (refresh_result "没有 refresh_token" false),
   {| session := store_tokens [("access_token", PyStr "AT-2")] (PyStr "AT-2") logged_in;
      sent := [] |}).
Proof.
  exact (refresh_without_rotation (answering (access_only 200)) (answering token_ok) logged_in
           (access_only 200) [("access_token", PyStr "AT-2")] (PyStr "AT-2")
           eq_refl eq_refl eq_refl eq_refl eq_refl).
Defined.

(** X13: the tokens a successful code exchange stores are the ones the
    later calls send: /profile posts the stored access_token to the
    userinfo endpoint, and /refresh posts the stored refresh_token to the
    refresh-token endpoint, when the stored value is not falsy. *)
Theorem exchanged_tokens_are_used e e' req s c r d v :
  args_get "code" (args req) = PyStr c -> c <> "" ->
  provider e (token_call c) = inr r ->
  status_code r = 200 ->
  json r = Some (PyDict d) ->
  Py.dict_get "access_token" d = Some v ->
  (Py.truthy v = true ->
   sent (snd (handle (profile e') (session (snd (handle (authorize e req) s))))) =
   [ {| url := USERINFO_URL; headers := json_headers;
        data := PyDict [ ("client_id", PyStr CLIENT_ID); ("access_token", v);
                         ("scope", PyStr SCOPE) ] |} ]) /\
  (forall t,
      Py.dict_get "refresh_token" d = Some t -> Py.truthy t = true ->
      sent (snd (handle (refresh_token e') (session (snd (handle (authorize e req) s))))) =
      [ {| url := REFRESH_TOKEN_URL; headers := json_headers;
           data := PyDict [ ("client_id", PyStr CLIENT_ID);
                            ("grant_type", PyStr "refresh_token");
                            ("refresh_token", t) ] |} ]).
Proof.
  intros Hcode Hc Hr Hst Hj Hd.
  assert (Hout : session (snd (handle (authorize e req) s)) = store_tokens d v s).
  { rewrite (authorize_posts e req s c Hcode Hc), Hr, (status_test_200 r Hst).
    unfold bind, resp_json. rewrite Hj. unfold lift, ret. cbn [Py.contains].
    unfold Py.dict_has. rewrite Hd. cbn [negb Py.getitem]. rewrite Hd. reflexivity. }
  rewrite Hout. split.
  - intros Hv. destruct (profile_cases e' (store_tokens d v s)) as [_ [-> _]].
    unfold holds, userinfo_call. rewrite store_tokens_access.
    change (default PyNone (Some v)) with v. rewrite Hv. reflexivity.
  - intros t Ht Htr. rewrite refresh_sent.
    unfold holds, refresh_call. rewrite store_tokens_refresh, Ht.
    change (default PyNone (Some (default PyNone (Some t)))) with t.
    rewrite Htr. reflexivity.
Qed.

Lemma exchanged_tokens_are_used_witness :
  sent (snd (handle (profile (answering userinfo_ok))
               (session (snd (handle (authorize (answering token_ok) callback_request) ∅))))) =
  [ {| url := USERINFO_URL; headers := json_headers;
       data := PyDict [ ("client_id", PyStr CLIENT_ID); ("access_token", PyStr "AT-1");
                        ("scope", PyStr SCOPE) ] |} ] /\
  sent (snd (handle (refresh_token (answering userinfo_ok))
               (session (snd (handle (authorize (answering token_ok) callback_request) ∅))))) =
  [ {| url := REFRESH_TOKEN_URL; headers := json_headers;
       data := PyDict [ ("client_id", PyStr CLIENT_ID);
                        ("grant_type", PyStr "refresh_token");
                        ("refresh_token", PyStr "RT-1") ] |} ].
Proof.
  assert (Hc : "abc" <> "") by discriminate.
  destruct (exchanged_tokens_are_used (answering token_ok) (answering userinfo_ok)
              callback_request ∅ "abc" token_ok
              [("access_token", PyStr "AT-1"); ("refresh_token", PyStr "RT-1")] (PyStr "AT-1")
              eq_refl Hc eq_refl eq_refl eq_refl eq_refl) as [Hp Hr].
  split; [exact (Hp eq_refl) | exact (Hr (PyStr "RT-1") eq_refl eq_refl)].
Defined.

(** X14: an empty [code] value is handled exactly like a missing one: no
    token call is made and the outcome is that of a request without [code]
    (the redirect to the provider); only the first [code] of the query
    string counts. *)
Theorem authorize_empty_code e req req' s :
  args_get "code" (args req) = PyStr "" ->
  args_get "code" (args req') = PyNone ->
  handle (authorize e req) s = handle (authorize e req') s /\
  sent (snd (handle (authorize e req) s)) = [].
Proof.
  intros Hempty Hnone.
  rewrite (authorize_redirects e req s), (authorize_redirects e req' s).
  - split; reflexivity.
  - rewrite Hnone. reflexivity.
  - rewrite Hempty. reflexivity.
Qed.

Lemma authorize_empty_code_witness :
  handle (authorize (answering token_ok) empty_code_request) logged_in =
  handle (authorize (answering token_ok) plain_request) logged_in /\
  sent (snd (handle (authorize (answering token_ok) empty_code_request) logged_in)) = [].
Proof.
  exact (authorize_empty_code (answering token_ok) empty_code_request plain_request logged_in
           eq_refl eq_refl).
Defined.



(** X16: the code exchange tests that the key access_token is there, not
    what it holds.  A 200 answer whose access_token is falsy ([null], an
    empty string) is a success: the response is the redirect to /welcome
    and the value is stored; but the session then holds no usable token,
    and /profile redirects to / without a provider call. *)
Theorem exchange_accepts_falsy_token e e' req s c r d v :
  args_get "code" (args req) = PyStr c -> c <> "" ->
  provider e (token_call c) = inr r ->
  status_code r = 200 ->
  json r = Some (PyDict d) ->
  Py.dict_get "access_token" d = Some v ->
  Py.truthy v = false ->
  handle (authorize e req) s =
  (inr (Redirect "/welcome" []), {| session := store_tokens d v s; sent := [token_call c] |}) /\
  handle (profile e') (session (snd (handle (authorize e req) s))) =
  (inr (Redirect "/" []), {| session := store_tokens d v s; sent := [] |}).
Proof.
  intros Hcode Hc Hr Hst Hj Hd Hv.
  assert (Hout : handle (authorize e req) s =
                 (inr (Redirect "/welcome" []),
                  {| session := store_tokens d v s; sent := [token_call c] |})).
  { rewrite (authorize_posts e req s c Hcode Hc), Hr, (status_test_200 r Hst).
    unfold bind, resp_json. rewrite Hj. unfold lift, ret. cbn [Py.contains].
    unfold Py.dict_has. rewrite Hd. cbn [negb Py.getitem]. rewrite Hd. reflexivity. }
  rewrite Hout. cbn [snd session]. split; [reflexivity |].
  apply profile_skips. unfold holds. rewrite store_tokens_access. exact Hv.
Qed.

Lemma exchange_accepts_falsy_token_witness :
  handle (authorize (answering null_token) callback_request) ∅ =
  (inr (Redirect "/welcome" []),
   {| session := store_tokens [("access_token", PyNone)] PyNone ∅;
      sent := [token_call "abc"] |}) /\
  handle (profile (answering userinfo_ok))
    (session (snd (handle (authorize (answering null_token) callback_request) ∅))) =
  (inr (Redirect "/" []),
   {| session := store_tokens [("access_token", PyNone)] PyNone ∅; sent := [] |}).
Proof.
  refine (exchange_accepts_falsy_token (answering null_token) (answering userinfo_ok)
            callback_request ∅ "abc" null_token [("access_token", PyNone)] PyNone
            eq_refl _ eq_refl eq_refl eq_refl eq_refl eq_refl).
  discriminate.
Defined.

(** X17: on the code exchange, a 200 answer whose JSON is not an object
    never reaches the session.  When the membership test
    ["access_token" in token] is false (a list without that string, a
    string without that substring) the response is the 400 text with the
    value as Python prints it; in every other case (a list or string that
    contains it, a number, a boolean, null) a TypeError is raised. *)
Theorem authorize_non_object_body e req s c r token :
  args_get "code" (args req) = PyStr c -> c <> "" ->
  provider e (token_call c) = inr r ->
  status_code r = 200 ->
  json r = Some token ->
  (forall d, token <> PyDict d) ->
  handle (authorize e req) s =
  (match Py.contains "access_token" token with
   | inr false => inr (Text ("获取令牌失败: " +:+ Py.str (unicode_printable e) token) 400)
   | _ => inl TypeError
   end,
   {| session := s; sent := [token_call c] |}).
Proof.
  intros Hcode Hc Hr Hst Hj Hnd.
  rewrite (authorize_posts e req s c Hcode Hc), Hr, (status_test_200 r Hst).
  unfold bind, resp_json. rewrite Hj. unfold lift, ret.
  destruct token as [| b | z | f | t | l | d]; cbn [Py.contains]; try reflexivity.
  - destruct (Py.substring_of "access_token" t); reflexivity.
  - destruct (existsb (Py.is_str "access_token") l); reflexivity.
  - destruct (Hnd d eq_refl).
Qed.

Lemma authorize_non_object_body_witness :
  handle (authorize (answering token_array) callback_request) logged_in =
  (inl TypeError, {| session := logged_in; sent := [token_call "abc"] |}) /\
  handle (authorize (answering number_body) callback_request) logged_in =
  (inl TypeError, {| session := logged_in; sent := [token_call "abc"] |}).
Proof.
  assert (Hc : "abc" <> "") by discriminate.
  split.
  - refine (authorize_non_object_body (answering token_array) callback_request logged_in "abc"
              token_array (PyList [PyStr "access_token"]) eq_refl Hc eq_refl eq_refl eq_refl _).
    discriminate.
  - refine (authorize_non_object_body (answering number_body) callback_request logged_in "abc"
              number_body (PyInt 42) eq_refl Hc eq_refl eq_refl eq_refl _).
    discriminate.
Defined.

(** X18: on /refresh, an answer (of any status) whose JSON is not an object
    never reaches the session.  When the membership test is false the page
    reports failure with the value as Python prints it; in every other case
    a TypeError is raised. *)
Theorem refresh_non_object_body e s r data :
  holds "refresh_token" s = true ->
  provider e (refresh_call s) = inr r ->
  json r = Some data ->
  (forall d, data <> PyDict d) ->
  handle (refresh_token e) s =
  (match Py.contains "access_token" data with
   | inr false => inr (refresh_result ("刷新失败: " +:+ Py.str (unicode_printable e) data) false)
   | _ => inl TypeError
   end,
   {| session := s; sent := [refresh_call s] |}).
Proof.
  intros Hs Hr Hj Hnd. rewrite (refresh_posts e s Hs), Hr, Hj.
  unfold refresh_outcome, bind, lift, ret.
  destruct data as [| b | z | f | t | l | d]; cbn [Py.contains]; try reflexivity.
  - destruct (Py.substring_of "access_token" t); reflexivity.
  - destruct (existsb (Py.is_str "access_token") l); reflexivity.
  - destruct (Hnd d eq_refl).
Qed.

Lemma refresh_non_object_body_witness :
  handle (refresh_token (answering token_array)) logged_in =
  (inl TypeError, {| session := logged_in; sent := [refresh_call logged_in] |}) /\
  handle (refresh_token (answering number_body)) logged_in =
  (inl TypeError, {| session := logged_in; sent := [refresh_call logged_in] |}).
Proof.
  split.
  - refine (refresh_non_object_body (answering token_array) logged_in token_array
              (PyList [PyStr "access_token"]) eq_refl eq_refl eq_refl _).
    discriminate.
  - refine (refresh_non_object_body (answering number_body) logged_in number_body
              (PyInt 42) eq_refl eq_refl eq_refl _).
    discriminate.
Defined.
